(** * start-server.py: the WLST script that starts a WebLogic server
      through the node manager

    A shallow embedding of
    [operator/src/main/resources/scripts/start-server.py].  The script is
    straight-line Python 2 (Jython, run by WLST): it reads five environment
    variables, turns the base64 user key file into a binary file, and calls
    the WLST commands [nmConnect], [nmStart] and [nmDisconnect] inside one
    [try]/[except WLSTException] block, before calling [exit()].

    Everything the script does to the outside (environment lookups, lines
    printed, file operations, node manager commands) is recorded in a
    trace; what the outside answers is fixed by a [World]. *)

From Stdlib Require Import ZArith List String Ascii Bool Lia.
Import ListNotations.
Local Open Scope string_scope.
Local Open Scope Z_scope.

(** ** Exceptions and process outcomes *)

(** The exception classes that can reach the module body. *)
Inductive exn : Type :=
| SystemExit (code : Z)
| IOError (msg : string)
| binascii_Error (msg : string)
| WLSTException (msg : string).

(** [str(e)], what [print e] writes. *)
Definition str (e : exn) : string :=
  match e with
  | SystemExit c => ""
  | IOError m => m
  | binascii_Error m => m
  | WLSTException m => m
  end.

(** How the process ends: an exit status requested by the script, or an
    exception nobody caught (the interpreter prints a traceback; the
    script requested no status). *)
Inductive outcome : Type :=
| Exited (code : Z)
| Uncaught (e : exn).

(** ** The outside world *)

(** The keyword arguments of [nmConnect] as the script passes them. *)
Record nmConnect_args : Type := {
  userConfigFile : string;
  userKeyFile : string;
  host : string;
  port : string;
  domainName : string;
  domainDir : string;
  nmType : string
}.

(** One interaction of the script with the outside. *)
Inductive call : Type :=
| GetEnv (var : string)
| Print (line : string)
| FileOpen (path mode : string)
| FileRead (path : string)
| FileWrite (path data : string)
| FileClose (path : string)
| NmConnect (args : nmConnect_args)
| NmStart (serverName : string)
| NmDisconnect.

(** A call together with how it went: [None] when it returned normally,
    [Some msg] when it raised an exception with that message. *)
Inductive event : Type :=
| Ev (c : call) (failure : option string).

Definition trace : Type := list event.

(** The world answers every call.  [fault] sees the calls made so far, so
    that the same command may succeed once and fail the next time. *)
Record World : Type := {
  environ : string -> option string;
  file_data : string -> string;
  fault : trace -> call -> option string
}.

(** ** Base64: the interpreter's decoder and the standard decoding *)

Module Base64.

(** A Python 2 [str] is a byte string; a character and its code. *)
Definition ord (c : ascii) : Z := Z.of_N (N_of_ascii c).
Definition chr (n : Z) : ascii := ascii_of_N (Z.to_N n).

Definition BASE64_PAD : Z := 61.

(** Modelled from the spec: [base64.decodestring] belongs to the
    interpreter's library ([base64] and [binascii]), not to the repository;
    the spec calls it "a legacy decode routine equivalent to standard base64
    decoding".  The legacy routine is the lenient decoder of [binascii]: a
    table from 7-bit characters to 6-bit values ([-1] for characters outside
    the alphabet, the pad character mapped to [0]) and a loop that shifts the
    values into an accumulator, skipping what it does not know. *)
Definition table_a2b_base64 : list Z :=
  [ -1;-1;-1;-1; -1;-1;-1;-1; -1;-1;-1;-1; -1;-1;-1;-1;
    -1;-1;-1;-1; -1;-1;-1;-1; -1;-1;-1;-1; -1;-1;-1;-1;
    -1;-1;-1;-1; -1;-1;-1;-1; -1;-1;-1;62; -1;-1;-1;63;
    52;53;54;55; 56;57;58;59; 60;61;-1;-1; -1; 0;-1;-1;
    -1; 0; 1; 2;  3; 4; 5; 6;  7; 8; 9;10; 11;12;13;14;
    15;16;17;18; 19;20;21;22; 23;24;25;-1; -1;-1;-1;-1;
    -1;26;27;28; 29;30;31;32; 33;34;35;36; 37;38;39;40;
    41;42;43;44; 45;46;47;48; 49;50;51;-1; -1;-1;-1;-1 ].

(** Modelled from the spec: a lookup in the table of the legacy routine. *)
Definition a2b (c : Z) : Z := nth (Z.to_nat c) table_a2b_base64 (-1).

(** Modelled from the spec: the helper of the legacy routine that looks
    ahead for pad characters (not in the repository): the [(num+1)]-th
    character of [s] that the table knows, or [-1]. *)
Fixpoint binascii_find_valid (s : string) (num : Z) : Z :=
  match s with
  | EmptyString => -1
  | String ch rest =>
      let c := ord ch in
      let b64val := a2b (Z.land c 127) in
      if (c <=? 127) && negb (b64val =? -1) then
        if num =? 0 then c else binascii_find_valid rest (num - 1)
      else binascii_find_valid rest num
  end.

(** Modelled from the spec: the decoding loop of the legacy routine (not in
    the repository), over the remaining input, with the loop variables
    [leftbits], [leftchar] and [quad_pos]; it returns the final [leftbits]
    and the bytes appended to the output from here on.  Between two turns
    [leftchar] keeps at most six bits, so the values stay far below the
    width of the interpreter's integers and no wrap-around is written. *)
Fixpoint a2b_loop (s : string) (leftbits leftchar quad_pos : Z)
  : Z * string :=
  match s with
  | EmptyString => (leftbits, EmptyString)
  | String ch rest =>
      let this_ch := ord ch in
      if (this_ch >? 127) || (this_ch =? 13) || (this_ch =? 10)
         || (this_ch =? 32)
      then a2b_loop rest leftbits leftchar quad_pos
      else if this_ch =? BASE64_PAD then
        if (quad_pos <? 2)
           || ((quad_pos =? 2)
               && negb (binascii_find_valid s 1 =? BASE64_PAD))
        then a2b_loop rest leftbits leftchar quad_pos
        else (0, EmptyString)
      else
        let this_v := a2b this_ch in
        if this_v =? -1 then a2b_loop rest leftbits leftchar quad_pos
        else
          let quad_pos := Z.land (quad_pos + 1) 3 in
          let leftchar := Z.lor (Z.shiftl leftchar 6) this_v in
          let leftbits := leftbits + 6 in
          if leftbits >=? 8 then
            let leftbits := leftbits - 8 in
            let byte := chr (Z.land (Z.shiftr leftchar leftbits) 255) in
            let leftchar := Z.land leftchar (Z.shiftl 1 leftbits - 1) in
            let '(lb, out) := a2b_loop rest leftbits leftchar quad_pos in
            (lb, String byte out)
          else a2b_loop rest leftbits leftchar quad_pos
  end.

(** Modelled from the spec: [binascii.a2b_base64] (not in the repository);
    bits left over at the end are an error. *)
Definition a2b_base64 (ascii_data : string) : string + exn :=
  let '(leftbits, bin_data) := a2b_loop ascii_data 0 0 0 in
  if negb (leftbits =? 0) then inr (binascii_Error "Incorrect padding")
  else inl bin_data.

(** Modelled from the spec: [base64.decodestring] (not in the repository),
    the "legacy decode routine"; it is [binascii.a2b_base64]. *)
Definition decodestring (s : string) : string + exn := a2b_base64 s.

(** *** Standard base64 (RFC 4648), written from its definition *)

Definition alphabet : string :=
  "ABCDEFGHIJKLMNOPQRSTUVWXYZabcdefghijklmnopqrstuvwxyz0123456789+/".

Fixpoint index_from (i : Z) (c : ascii) (s : string) : option Z :=
  match s with
  | EmptyString => None
  | String d rest =>
      if Ascii.eqb c d then Some i else index_from (i + 1) c rest
  end.

(** The 6-bit value of an alphabet character. *)
Definition sextet (c : ascii) : option Z := index_from 0 c alphabet.

Definition is_pad (c : ascii) : bool := Ascii.eqb c "="%char.

(** Four 6-bit values concatenated into a 24-bit group, and the three
    8-bit groups of a 24-bit group. *)
Definition group24 (a b c d : Z) : Z := ((a * 64 + b) * 64 + c) * 64 + d.
Definition octet1 (n : Z) : ascii := chr (n / 65536).
Definition octet2 (n : Z) : ascii := chr ((n / 256) mod 256).
Definition octet3 (n : Z) : ascii := chr (n mod 256).

(** Strict decoding: the text is a sequence of 4-character groups over the
    alphabet; only the last group may end in one or two pad characters. *)
Fixpoint std_b64decode (s : string) : option string :=
  match s with
  | EmptyString => Some EmptyString
  | String c1 (String c2 (String c3 (String c4 rest))) =>
      match sextet c1, sextet c2 with
      | Some a, Some b =>
          match sextet c3, sextet c4 with
          | Some c, Some d =>
              match std_b64decode rest with
              | Some bs =>
                  let n := group24 a b c d in
                  Some (String (octet1 n) (String (octet2 n)
                          (String (octet3 n) bs)))
              | None => None
              end
          | Some c, None =>
              match rest with
              | EmptyString =>
                  if is_pad c4 then
                    let n := group24 a b c 0 in
                    Some (String (octet1 n) (String (octet2 n) EmptyString))
                  else None
              | _ => None
              end
          | None, _ =>
              match rest with
              | EmptyString =>
                  if is_pad c3 && is_pad c4 then
                    Some (String (octet1 (group24 a b 0 0)) EmptyString)
                  else None
              | _ => None
              end
          end
      | _, _ => None
      end
  | _ => None
  end.

(** Standard encoding, the inverse direction. *)
Definition b64char (v : Z) : ascii :=
  match get (Z.to_nat v) alphabet with
  | Some c => c
  | None => "="%char
  end.

Definition bytes24 (x y z : ascii) : Z :=
  (ord x * 256 + ord y) * 256 + ord z.

Fixpoint b64encode (bs : string) : string :=
  match bs with
  | EmptyString => EmptyString
  | String x EmptyString =>
      let n := bytes24 x zero zero in
      String (b64char (n / 262144)) (String (b64char ((n / 4096) mod 64))
        "==")
  | String x (String y EmptyString) =>
      let n := bytes24 x y zero in
      String (b64char (n / 262144)) (String (b64char ((n / 4096) mod 64))
        (String (b64char ((n / 64) mod 64)) "="))
  | String x (String y (String z rest)) =>
      let n := bytes24 x y z in
      String (b64char (n / 262144)) (String (b64char ((n / 4096) mod 64))
        (String (b64char ((n / 64) mod 64)) (String (b64char (n mod 64))
          (b64encode rest))))
  end.

(** Carriage return, line feed and space: what breaks a text into lines. *)
Definition is_blank (c : ascii) : bool :=
  (ord c =? 13) || (ord c =? 10) || (ord c =? 32).

Fixpoint strip_blanks (s : string) : string :=
  match s with
  | EmptyString => EmptyString
  | String c rest =>
      if is_blank c then strip_blanks rest else String c (strip_blanks rest)
  end.

End Base64.


(** ** The script's effects: a trace-and-exception monad *)

(** A computation extends the trace of calls made so far and either
    returns a value or raises an exception. *)
Definition M (A : Type) : Type := trace -> trace * (A + exn).

Definition ret {A} (a : A) : M A := fun t => (t, inl a).

Definition bind {A B} (m : M A) (k : A -> M B) : M B :=
  fun t =>
    match m t with
    | (t', inl a) => k a t'
    | (t', inr e) => (t', inr e)
    end.

Definition raise {A} (e : exn) : M A := fun t => (t, inr e).

Notation "x <- m ;; k" := (bind m (fun x => k))
  (at level 61, m at next level, right associativity).
Notation "m ;; k" := (bind m (fun _ => k))
  (at level 61, right associativity).

(** [try: body except WLSTException, e: handler e].  Only the class named
    in the [except] clause is caught; an exception raised by the handler
    itself propagates. *)
Definition try_except_WLSTException (body : M unit) (handler : exn -> M unit)
  : M unit :=
  fun t =>
    match body t with
    | (t', inl tt) => (t', inl tt)
    | (t', inr (WLSTException msg)) => handler (WLSTException msg) t'
    | (t', inr e) => (t', inr e)
    end.

Section Primitives.

Variable w : World.

(** A call that cannot fail. *)
Definition emit (c : call) : M unit :=
  fun t => ((t ++ [Ev c None])%list, inl tt).

(** A call the world may refuse; [cls] is the exception class raised. *)
Definition perform (cls : string -> exn) (c : call) : M unit :=
  fun t =>
    match fault w t c with
    | None => ((t ++ [Ev c None])%list, inl tt)
    | Some msg => ((t ++ [Ev c (Some msg)])%list, inr (cls msg))
    end.

(** [os.environ.get(var)]; the script does not import [os], WLST provides
    it. *)
Definition os_environ_get (var : string) : M (option string) :=
  emit (GetEnv var) ;; ret (environ w var).

(** The [print] statement: the items separated by one space, then a
    newline; one [Print] event per line. *)
Definition print (items : list string) : M unit :=
  emit (Print (String.concat " " items)).

(** [sys.exit(code)] and WLST's [exit()], which ends the process with
    status 0. *)
Definition sys_exit {A} (code : Z) : M A := raise (SystemExit code).
Definition exit : M unit := raise (SystemExit 0).

(** File objects: [open], [read], [write], [close]; a file object is
    represented by its path. *)
Definition open (path mode : string) : M string :=
  perform IOError (FileOpen path mode) ;; ret path.

Definition file_read (file : string) : M string :=
  perform IOError (FileRead file) ;; ret (file_data w file).

Definition file_write (file data : string) : M unit :=
  perform IOError (FileWrite file data).

Definition file_close (file : string) : M unit :=
  perform IOError (FileClose file).

(** [base64.decodestring], raising what the decoder raises. *)
Definition base64_decodestring (s : string) : M string :=
  match Base64.decodestring s with
  | inl bytes => ret bytes
  | inr e => raise e
  end.

(** The WLST node manager commands; each raises [WLSTException] on error. *)
Definition nmConnect (args : nmConnect_args) : M unit :=
  perform WLSTException (NmConnect args).

Definition nmStart (serverName : string) : M unit :=
  perform WLSTException (NmStart serverName).

Definition nmDisconnect : M unit :=
  perform WLSTException NmDisconnect.

(** ** The script *)

Definition getEnvVar (var : string) : M string :=
  val <- os_environ_get var ;;
  match val with
  | None =>
      print ["ERROR: Env var "; var; " not set."] ;;
      sys_exit 1
  | Some val => ret val
  end.

Definition key_path : string :=
  "/weblogic-operator/introspector/userKeyNodeManager.secure".
Definition bin_path : string := "/tmp/userKeyNodeManager.secure.bin".
Definition config_path : string :=
  "/weblogic-operator/introspector/userConfigNodeManager.secure".

(** The module body, statement by statement. *)
Definition script : M unit :=
  domain_uid <- getEnvVar "DOMAIN_UID" ;;
  server_name <- getEnvVar "SERVER_NAME" ;;
  domain_name <- getEnvVar "DOMAIN_NAME" ;;
  domain_path <- getEnvVar "DOMAIN_HOME" ;;
  service_name <- getEnvVar "SERVICE_NAME" ;;
  print ["domain path is " ++ domain_path] ;;
  print ["server name is " ++ server_name] ;;
  file <- open key_path "r" ;;
  contents <- file_read file ;;
  file_close file ;;
  decoded <- base64_decodestring contents ;;
  file <- open bin_path "wb" ;;
  file_write file decoded ;;
  file_close file ;;
  try_except_WLSTException
    (nmConnect {| userConfigFile := config_path;
                  userKeyFile := bin_path;
                  host := "127.0.0.1"; port := "5556";
                  domainName := domain_name;
                  domainDir := domain_path; nmType := "plain" |} ;;
     nmStart server_name ;;
     nmDisconnect)
    (fun e =>
       nmDisconnect ;;
       print [str e]) ;;
  exit.

End Primitives.

(** Running the script as a process: [SystemExit] becomes the exit status;
    falling off the end of a script is status 0. *)
Definition run (w : World) : trace * outcome :=
  match script w [] with
  | (t, inl tt) => (t, Exited 0)
  | (t, inr (SystemExit code)) => (t, Exited code)
  | (t, inr e) => (t, Uncaught e)
  end.

Definition final_trace (w : World) : trace := fst (run w).
Definition exit_status (w : World) : outcome := snd (run w).

(** ** Reading traces *)

Definition call_of (e : event) : call := let 'Ev c _ := e in c.
Definition failure_of (e : event) : option string := let 'Ev _ r := e in r.
Definition calls (t : trace) : list call := map call_of t.

Definition is_file_call (c : call) : bool :=
  match c with
  | FileOpen _ _ | FileRead _ | FileWrite _ _ | FileClose _ => true
  | _ => false
  end.

Definition is_nm_call (c : call) : bool :=
  match c with
  | NmConnect _ | NmStart _ | NmDisconnect => true
  | _ => false
  end.

Definition is_connect_or_start (c : call) : bool :=
  match c with
  | NmConnect _ | NmStart _ => true
  | _ => false
  end.

(** The file operations and the node manager commands of a trace. *)
Definition file_calls (t : trace) : list call := filter is_file_call (calls t).
Definition nm_calls (t : trace) : list call := filter is_nm_call (calls t).

(** The lines written to standard output. *)
Fixpoint printed (t : trace) : list string :=
  match t with
  | [] => []
  | Ev (Print line) _ :: t' => line :: printed t'
  | _ :: t' => printed t'
  end.

(** The variables looked up, in the order of the lookups. *)
Fixpoint env_lookups (t : trace) : list string :=
  match t with
  | [] => []
  | Ev (GetEnv v) _ :: t' => v :: env_lookups t'
  | _ :: t' => env_lookups t'
  end.

Definition required_vars : list string :=
  ["DOMAIN_UID"; "SERVER_NAME"; "DOMAIN_NAME"; "DOMAIN_HOME"; "SERVICE_NAME"].

Definition unset (w : World) (v : string) : bool :=
  match environ w v with
  | None => true
  | Some _ => false
  end.

(** The first required variable, in the order of [required_vars], that the
    environment does not define. *)
Definition first_missing (w : World) : option string :=
  find (unset w) required_vars.

(** The line [getEnvVar] prints for a missing variable. *)
Definition env_error (var : string) : string :=
  "ERROR: Env var  " ++ var ++ "  not set.".

Definition scenario : World :=
  {| environ := fun v =>
       if String.eqb v "DOMAIN_UID" then Some "uid1"
       else if String.eqb v "SERVER_NAME" then Some "server1"
       else if String.eqb v "DOMAIN_NAME" then Some "domain1"
       else if String.eqb v "DOMAIN_HOME" then Some "/shared/domain"
       else if String.eqb v "SERVICE_NAME" then Some "svc1"
       else None;
     file_data := fun _ => "c2VjcmV0Ynl0ZXM=";
     fault := fun _ _ => None |}.


(** The variables of [vs] up to and including [m]. *)
Fixpoint through (m : string) (vs : list string) : list string :=
  match vs with
  | [] => []
  | v :: vs' => if String.eqb v m then [v] else v :: through m vs'
  end.

Definition lookup_event (v : string) : event := Ev (GetEnv v) None.

(** The first call that raised, with the events before and after it. *)
Fixpoint first_failure (t : trace) : option (trace * event * trace) :=
  match t with
  | [] => None
  | Ev c (Some msg) :: t' => Some ([], Ev c (Some msg), t')
  | Ev c None :: t' =>
      match first_failure t' with
      | Some (pre, e, post) => Some (Ev c None :: pre, e, post)
      | None => None
      end
  end.

(** Whether the last call of the trace raised. *)
Definition last_failure (t : trace) : option string :=
  match rev t with
  | [] => None
  | e :: _ => failure_of e
  end.

(** Whether the [except] handler ran: some node manager command raised. *)
Definition handler_ran (t : trace) : bool :=
  match first_failure t with
  | Some (_, e, _) => is_nm_call (call_of e)
  | None => false
  end.

(** The node manager events of a trace, with their results. *)
Definition nm_events (t : trace) : trace :=
  filter (fun e => is_nm_call (call_of e)) t.

(** The steps of the start-up sequence.  Printing is not a step. *)
Inductive phase : Type :=
| LoadConfig
| DecodeCredential
| Connect
| Start
| Disconnect.

Definition phase_of (c : call) : option phase :=
  match c with
  | GetEnv _ => Some LoadConfig
  | Print _ => None
  | FileOpen _ _ | FileRead _ | FileWrite _ _ | FileClose _ =>
      Some DecodeCredential
  | NmConnect _ => Some Connect
  | NmStart _ => Some Start
  | NmDisconnect => Some Disconnect
  end.

Fixpoint phases (t : trace) : list phase :=
  match t with
  | [] => []
  | Ev c _ :: t' =>
      match phase_of c with
      | Some p => p :: phases t'
      | None => phases t'
      end
  end.

(** The phases of a run in which nothing fails: five lookups, six file
    operations, then connect, start, disconnect. *)
Definition normal_phases : list phase :=
  [LoadConfig; LoadConfig; LoadConfig; LoadConfig; LoadConfig;
   DecodeCredential; DecodeCredential; DecodeCredential;
   DecodeCredential; DecodeCredential; DecodeCredential;
   Connect; Start; Disconnect].

(** ** Some worlds *)

(** The scenario of the specification, with a given behaviour of the file
    system and of the node manager. *)
Definition scenario_with (f : trace -> call -> option string) : World :=
  {| environ := environ scenario;
     file_data := file_data scenario;
     fault := f |}.

(** The scenario with one variable removed from the environment. *)
Definition scenario_without (x : string) : World :=
  {| environ := fun v => if String.eqb v x then None else environ scenario v;
     file_data := file_data scenario;
     fault := fault scenario |}.

Definition is_disconnect (e : event) : bool :=
  match call_of e with
  | NmDisconnect => true
  | _ => false
  end.

(** The key file does not exist. *)
Definition no_key_file : World :=
  scenario_with (fun _ c =>
    match c with
    | FileOpen _ "r" => Some "[Errno 2] No such file or directory"
    | _ => None
    end).

(** The temporary file cannot be written. *)
Definition disk_full : World :=
  scenario_with (fun _ c =>
    match c with
    | FileWrite _ _ => Some "[Errno 28] No space left on device"
    | _ => None
    end).

(** The node manager refuses the connection; disconnecting works. *)
Definition refused : World :=
  scenario_with (fun _ c =>
    match c with
    | NmConnect _ => Some "Cannot connect to Node Manager"
    | _ => None
    end).

(** The node manager refuses the connection, and disconnecting while not
    connected raises as well. *)
Definition refused_and_not_connected : World :=
  scenario_with (fun _ c =>
    match c with
    | NmConnect _ => Some "Cannot connect to Node Manager"
    | NmDisconnect => Some "Not connected to Node Manager"
    | _ => None
    end).

(** The start command fails, and so does every disconnect. *)
Definition start_and_disconnect_fail : World :=
  scenario_with (fun _ c =>
    match c with
    | NmStart _ => Some "Error Starting server"
    | NmDisconnect => Some "Connection lost"
    | _ => None
    end).

(** Connect and start succeed; the first disconnect raises, later ones
    succeed. *)
Definition first_disconnect_fails : World :=
  scenario_with (fun t c =>
    match c with
    | NmDisconnect =>
        if existsb is_disconnect t then None else Some "Connection lost"
    | _ => None
    end).

(** The key file holds text that is not base64. *)
Definition bad_key_file : World :=
  {| environ := environ scenario;
     file_data := fun _ => "c2VjcmV0Ynl0ZXM";
     fault := fun _ _ => None |}.

(** The connect command the script issues in the scenario. *)
Definition scenario_connect : call :=
  NmConnect {| userConfigFile := config_path;
               userKeyFile := bin_path;
               host := "127.0.0.1"; port := "5556";
               domainName := "domain1";
               domainDir := "/shared/domain"; nmType := "plain" |}.

(** ** Further readings of a run *)

Definition is_print (c : call) : bool :=
  match c with
  | Print _ => true
  | _ => false
  end.

Definition is_disconnect_call (c : call) : bool :=
  match c with
  | NmDisconnect => true
  | _ => false
  end.

(** The calls of a trace other than printing and disconnecting. *)
Definition single_calls (t : trace) : list call :=
  filter (fun c => negb (is_print c) && negb (is_disconnect_call c)) (calls t).

(** The file operations of the decoding step, in the order of the module
    body, for a given decoded key. *)
Definition key_file_ops (decoded : string) : list call :=
  [FileOpen key_path "r"; FileRead key_path; FileClose key_path;
   FileOpen bin_path "wb"; FileWrite bin_path decoded; FileClose bin_path].

(** Two worlds the script cannot tell apart: they agree on which of
    DOMAIN_UID and SERVICE_NAME are set, on the values of the three other
    variables, on the text of the key file and on how calls are answered. *)
Definition same_inputs (w w' : World) : Prop :=
  unset w "DOMAIN_UID" = unset w' "DOMAIN_UID" /\
  unset w "SERVICE_NAME" = unset w' "SERVICE_NAME" /\
  environ w "SERVER_NAME" = environ w' "SERVER_NAME" /\
  environ w "DOMAIN_NAME" = environ w' "DOMAIN_NAME" /\
  environ w "DOMAIN_HOME" = environ w' "DOMAIN_HOME" /\
  file_data w key_path = file_data w' key_path /\
  (forall t c, fault w t c = fault w' t c).

(** The scenario with other values for DOMAIN_UID and SERVICE_NAME, other
    variables around, and other files beside the key file. *)
Definition scenario_other_uid : World :=
  {| environ := fun v =>
       if String.eqb v "DOMAIN_UID" then Some "uid2"
       else if String.eqb v "SERVICE_NAME" then Some ""
       else if String.eqb v "HOME" then Some "/root"
       else environ scenario v;
     file_data := fun p =>
       if String.eqb p key_path then file_data scenario p else "other";
     fault := fault scenario |}.

(** The key file of the scenario broken into two lines. *)
Definition wrapped_key_file : World :=
  {| environ := environ scenario;
     file_data := fun _ =>
       String.append "c2VjcmV0" (String "010"%char
         (String.append "Ynl0ZXM=" (String "010"%char EmptyString)));
     fault := fun _ _ => None |}.

(** The arguments of the connect command in the scenario. *)
Definition scenario_connect_args : nmConnect_args :=
  {| userConfigFile := config_path;
     userKeyFile := bin_path;
     host := "127.0.0.1"; port := "5556";
     domainName := "domain1";
     domainDir := "/shared/domain"; nmType := "plain" |}.

(** ** The process status *)


(** The world refuses a call: it answers it with an error whatever
    happened before. *)
Definition refuses (w : World) (c : call) : Prop :=
  forall t, fault w t c <> None.

(** The key file exists but cannot be read. *)
Definition unreadable_key_file : World :=
  scenario_with (fun _ c =>
    match c with
    | FileRead _ => Some "[Errno 5] Input/output error"
    | _ => None
    end).

(** The temporary directory is not writable. *)
Definition read_only_tmp : World :=
  scenario_with (fun _ c =>
    match c with
    | FileOpen _ "wb" => Some "[Errno 13] Permission denied"
    | _ => None
    end).

(** * Properties *)

(** ** How the script runs: one case per path *)

Arguments Base64.decodestring : simpl never.

Lemma decodestring_error (s : string) (e : exn) :
  Base64.decodestring s = inr e -> e = binascii_Error "Incorrect padding".
Proof.
  unfold Base64.decodestring, Base64.a2b_base64.
  destruct (Base64.a2b_loop s 0 0 0) as [lb out].
  destruct (negb (lb =? 0)); congruence.
Qed.

Ltac unfold_script :=
  unfold final_trace, exit_status, run, script, getEnvVar, os_environ_get,
    print, sys_exit, exit, open, file_read, file_write, file_close,
    base64_decodestring, nmConnect, nmStart, nmDisconnect,
    try_except_WLSTException, perform, emit, bind, ret, raise.

(** Split on the next answer of the world the run depends on. *)
Ltac case_step :=
  match goal with
  | |- context [match environ ?w ?v with _ => _ end] =>
      destruct (environ w v) eqn:?
  | |- context [match fault ?w ?t ?c with _ => _ end] =>
      destruct (fault w t c) eqn:?
  | |- context [match Base64.decodestring ?s with _ => _ end] =>
      let H := fresh "Hdec" in
      destruct (Base64.decodestring s) eqn:H;
      [ | apply decodestring_error in H; subst ]
  end; simpl.

Ltac run_cases := unfold_script; simpl; repeat case_step.

Ltac in_required H :=
  simpl in H;
  repeat (destruct H as [H | H]; [subst; try congruence | ]);
  try contradiction.

(** C1: when one of the five required variables is unset, the script prints
    one line, the configuration error naming a required variable that is
    unset (the first one in the order of the checks, which is the variable
    itself when no other one is unset), and exits with status 1 without any
    file operation or node manager command. *)
Theorem missing_variable_is_fatal (w : World) (v : string) :
  In v required_vars -> environ w v = None ->
  exists m,
    first_missing w = Some m /\
    In m required_vars /\ environ w m = None /\
    ((forall u, In u required_vars -> environ w u = None -> u = v) ->
     m = v) /\
    printed (final_trace w) = [env_error m] /\
    exit_status w = Exited 1 /\
    file_calls (final_trace w) = [] /\
    nm_calls (final_trace w) = [].
Proof.
  unfold first_missing, required_vars, unset, env_error.
  run_cases; intros Hin Hv.
  all: try (exfalso; in_required Hin; fail).
  all: eexists; split; [reflexivity | ].
  all: repeat split; simpl; auto 10.
  all: intros Hu; symmetry; apply Hu; simpl; auto 10.
Qed.

Lemma missing_variable_is_fatal_witness :
  exists m,
    first_missing (scenario_without "DOMAIN_NAME") = Some m /\
    In m required_vars /\ environ (scenario_without "DOMAIN_NAME") m = None /\
    ((forall u, In u required_vars ->
                environ (scenario_without "DOMAIN_NAME") u = None ->
                u = "DOMAIN_NAME") -> m = "DOMAIN_NAME") /\
    printed (final_trace (scenario_without "DOMAIN_NAME")) = [env_error m] /\
    exit_status (scenario_without "DOMAIN_NAME") = Exited 1 /\
    file_calls (final_trace (scenario_without "DOMAIN_NAME")) = [] /\
    nm_calls (final_trace (scenario_without "DOMAIN_NAME")) = [].
Proof.
  apply (missing_variable_is_fatal (scenario_without "DOMAIN_NAME")
           "DOMAIN_NAME").
  - simpl; auto.
  - reflexivity.
Defined.

(** C10: the variables are looked up in the order DOMAIN_UID, SERVER_NAME,
    DOMAIN_NAME, DOMAIN_HOME, SERVICE_NAME.  When some are missing, the run
    consists of the lookups up to the first missing one and of the error
    line naming it, and nothing else is printed; when none is missing, the
    five lookups are followed by the two diagnostic lines. *)
Theorem first_missing_variable_is_named (w : World) :
  match first_missing w with
  | Some m =>
      final_trace w =
        (map lookup_event (through m required_vars)
           ++ [Ev (Print (env_error m)) None])%list /\
      exit_status w = Exited 1
  | None =>
      exists server dhome rest,
        environ w "SERVER_NAME" = Some server /\
        environ w "DOMAIN_HOME" = Some dhome /\
        final_trace w =
          (map lookup_event required_vars
             ++ Ev (Print ("domain path is " ++ dhome)) None
             :: Ev (Print ("server name is " ++ server)) None
             :: rest)%list
  end.
Proof.
  unfold first_missing, required_vars, unset, env_error, lookup_event.
  run_cases.
  all: try (split; reflexivity).
  all: do 3 eexists; repeat split; reflexivity.
Qed.

Lemma first_failure_split (t pre post : trace) (e : event) :
  first_failure t = Some (pre, e, post) -> t = (pre ++ e :: post)%list.
Proof.
  revert pre; induction t as [|[c [m|]] t IH]; simpl; intros pre H.
  - discriminate.
  - injection H as <- <- <-. reflexivity.
  - destruct (first_failure t) as [[[p e'] q]|]; [|discriminate].
    injection H as <- <- <-. simpl. f_equal. apply IH. reflexivity.
Qed.

Ltac in_trace H :=
  simpl in H;
  repeat (destruct H as [H | H]; [try discriminate H | ]);
  try contradiction.

(** What follows the first node manager command that raises: the handler's
    disconnect and then the line with the message, or the handler's
    disconnect raising in its turn. *)
Lemma handler_shape (w : World) (pre post : trace) (c : call) (msg : string) :
  first_failure (final_trace w) = Some (pre, Ev c (Some msg), post) ->
  is_nm_call c = true ->
  (post = [Ev NmDisconnect None; Ev (Print msg) None] /\
   exit_status w = Exited 0) \/
  (exists msg2, post = [Ev NmDisconnect (Some msg2)] /\
                exit_status w = Uncaught (WLSTException msg2)).
Proof.
  run_cases; intros H Hc.
  all: try discriminate H.
  all: injection H as <- <- <- <-; try discriminate Hc.
  all: try (left; split; reflexivity).
  all: right; eexists; split; reflexivity.
Qed.

(** A connect or start command that raises is the first call to raise. *)
Lemma connect_or_start_fails_first (w : World) (c : call) (msg : string) :
  In (Ev c (Some msg)) (final_trace w) -> is_connect_or_start c = true ->
  exists pre post,
    first_failure (final_trace w) = Some (pre, Ev c (Some msg), post).
Proof.
  run_cases; intros H Hc.
  all: in_trace H.
  all: try (injection H as <- <-; try discriminate Hc;
            do 2 eexists; reflexivity).
Qed.

(** ** The interpreter's decoder against standard base64 *)

Section Base64Facts.

Import Base64.

(** Shifting a value left by six bits and or-ing a 6-bit value in is
    arithmetic: no bit is shared. *)
Lemma shift_in_add (x v : Z) :
  0 <= x -> 0 <= v < 64 -> Z.lor (Z.shiftl x 6) v = x * 64 + v.
Proof.
  intros Hx Hv.
  assert (Hland : Z.land (Z.shiftl x 6) v = 0).
  { apply Z.bits_inj'; intros n Hn.
    rewrite Z.land_spec, Z.bits_0.
    destruct (Z.lt_ge_cases n 6) as [Hlt | Hge].
    - rewrite Z.shiftl_spec_low by assumption. reflexivity.
    - assert (Z.testbit v n = false) as ->.
      { destruct (Z.eq_dec v 0) as [-> | Hv0]; [apply Z.bits_0 | ].
        apply Z.bits_above_log2; [lia | ].
        assert (Z.log2 v < 6); [ | lia].
        apply Z.log2_lt_pow2; [lia | ]. change (2 ^ 6) with 64. lia. }
      apply andb_false_r. }
  pose proof (Z.add_lor_land (Z.shiftl x 6) v) as H.
  rewrite Hland in H. rewrite Z.shiftl_mul_pow2 in * by lia.
  change (2 ^ 6) with 64 in *. lia.
Qed.

Lemma land_255 (x : Z) : Z.land x 255 = x mod 256.
Proof. change 255 with (Z.ones 8). rewrite Z.land_ones by lia. reflexivity. Qed.

Lemma land_15 (x : Z) : Z.land x 15 = x mod 16.
Proof. change 15 with (Z.ones 4). rewrite Z.land_ones by lia. reflexivity. Qed.

Lemma land_3 (x : Z) : Z.land x 3 = x mod 4.
Proof. change 3 with (Z.ones 2). rewrite Z.land_ones by lia. reflexivity. Qed.

(** The three bytes the loop produces for four 6-bit values are the three
    octets of their 24-bit group. *)
Lemma first_byte (a b c d : Z) :
  0 <= a < 64 -> 0 <= b < 64 -> 0 <= c < 64 -> 0 <= d < 64 ->
  Z.land (Z.shiftr (Z.lor (Z.shiftl a 6) b) 4) 255
    = group24 a b c d / 65536.
Proof.
  intros Ha Hb Hc Hd. unfold group24.
  rewrite shift_in_add, land_255, Z.shiftr_div_pow2 by lia.
  change (2 ^ 4) with 16.
  pose proof (Z.div_mod b 16 ltac:(lia)).
  pose proof (Z.mod_pos_bound b 16 ltac:(lia)).
  assert (E1 : (a * 64 + b) / 16 = a * 4 + b / 16).
  { symmetry; apply Z.div_unique with (r := b mod 16); lia. }
  assert (E2 : (((a * 64 + b) * 64 + c) * 64 + d) / 65536 = a * 4 + b / 16).
  { symmetry;
      apply Z.div_unique with (r := ((b mod 16) * 64 + c) * 64 + d); lia. }
  rewrite E1, E2. apply Z.mod_small. lia.
Qed.

Lemma second_byte (a b c d : Z) :
  0 <= a < 64 -> 0 <= b < 64 -> 0 <= c < 64 -> 0 <= d < 64 ->
  Z.land (Z.shiftr
            (Z.lor (Z.shiftl (Z.land (Z.lor (Z.shiftl a 6) b) 15) 6) c) 2)
         255
    = (group24 a b c d / 256) mod 256.
Proof.
  intros Ha Hb Hc Hd. unfold group24.
  rewrite (shift_in_add a b), land_15 by lia.
  pose proof (Z.mod_pos_bound (a * 64 + b) 16 ltac:(lia)).
  rewrite shift_in_add, land_255, Z.shiftr_div_pow2 by lia.
  change (2 ^ 2) with 4.
  pose proof (Z.div_mod b 16 ltac:(lia)).
  pose proof (Z.mod_pos_bound b 16 ltac:(lia)).
  pose proof (Z.div_mod c 4 ltac:(lia)).
  pose proof (Z.mod_pos_bound c 4 ltac:(lia)).
  assert (E1 : (a * 64 + b) mod 16 = b mod 16).
  { symmetry; apply Z.mod_unique with (q := a * 4 + b / 16); lia. }
  rewrite E1.
  assert (E2 : ((b mod 16) * 64 + c) / 4 = (b mod 16) * 16 + c / 4).
  { symmetry; apply Z.div_unique with (r := c mod 4); lia. }
  assert (E3 : (((a * 64 + b) * 64 + c) * 64 + d) / 256
               = (a * 64 + b) * 16 + c / 4).
  { symmetry; apply Z.div_unique with (r := (c mod 4) * 64 + d); lia. }
  rewrite E2, E3.
  rewrite Z.mod_small by lia.
  apply Z.mod_unique with (q := a * 4 + b / 16); lia.
Qed.

Lemma third_byte (a b c d l : Z) :
  0 <= a < 64 -> 0 <= b < 64 -> 0 <= c < 64 -> 0 <= d < 64 -> 0 <= l ->
  Z.land (Z.shiftr (Z.lor (Z.shiftl (Z.land (Z.lor (Z.shiftl l 6) c) 3) 6) d)
                   0) 255
    = group24 a b c d mod 256.
Proof.
  intros Ha Hb Hc Hd Hl. unfold group24.
  rewrite (shift_in_add l c), land_3 by lia.
  pose proof (Z.mod_pos_bound (l * 64 + c) 4 ltac:(lia)).
  rewrite shift_in_add, land_255, Z.shiftr_0_r by lia.
  pose proof (Z.div_mod c 4 ltac:(lia)).
  pose proof (Z.mod_pos_bound c 4 ltac:(lia)).
  assert (E1 : (l * 64 + c) mod 4 = c mod 4).
  { symmetry; apply Z.mod_unique with (q := l * 16 + c / 4); lia. }
  rewrite E1.
  rewrite Z.mod_small by lia.
  apply Z.mod_unique with (q := (a * 64 + b) * 16 + c / 4); lia.
Qed.


(** An alphabet character is not skipped by the loop, and the table gives
    its 6-bit value. *)
Lemma sextet_char (ch : ascii) (v : Z) :
  sextet ch = Some v ->
  ((ord ch >? 127) || (ord ch =? 13) || (ord ch =? 10) || (ord ch =? 32))
    = false /\
  (ord ch =? BASE64_PAD) = false /\
  a2b (ord ch) = v /\ 0 <= v < 64.
Proof.
  destruct ch as [b0 b1 b2 b3 b4 b5 b6 b7].
  destruct b0, b1, b2, b3, b4, b5, b6, b7; intros H; vm_compute in H;
    try discriminate H; injection H as <-;
    (split; [reflexivity | split; [reflexivity | split; [reflexivity | lia]]]).
Qed.

(** One turn of the loop on an alphabet character. *)
Lemma a2b_loop_sextet (ch : ascii) (v : Z) (rest : string) (lb lc qp : Z) :
  sextet ch = Some v ->
  a2b_loop (String ch rest) lb lc qp =
    if lb + 6 >=? 8 then
      let '(lb', out) :=
        a2b_loop rest (lb + 6 - 8)
          (Z.land (Z.lor (Z.shiftl lc 6) v) (Z.shiftl 1 (lb + 6 - 8) - 1))
          (Z.land (qp + 1) 3) in
      (lb',
       String (chr (Z.land (Z.shiftr (Z.lor (Z.shiftl lc 6) v) (lb + 6 - 8))
                           255)) out)
    else a2b_loop rest (lb + 6) (Z.lor (Z.shiftl lc 6) v) (Z.land (qp + 1) 3).
Proof.
  intros H. destruct (sextet_char ch v H) as (Hskip & Hpad & Htab & Hv).
  cbn [a2b_loop]. rewrite Hskip, Hpad, Htab.
  destruct (Z.eqb_spec v (-1)); [lia | reflexivity].
Qed.

(** The loop on the first two, the third and the fourth character of a
    group. *)
Lemma a2b_loop_first_two (c1 c2 : ascii) (a b : Z) (rest : string) :
  sextet c1 = Some a -> sextet c2 = Some b ->
  a2b_loop (String c1 (String c2 rest)) 0 0 0 =
    let '(lb, out) :=
      a2b_loop rest 4 (Z.land (Z.lor (Z.shiftl a 6) b) 15) 2 in
    (lb, String (chr (Z.land (Z.shiftr (Z.lor (Z.shiftl a 6) b) 4) 255))
           out).
Proof.
  intros H1 H2.
  rewrite (a2b_loop_sextet c1 a) by assumption.
  change (0 + 6 >=? 8) with false; cbv iota.
  change (Z.lor (Z.shiftl 0 6) a) with a.
  rewrite (a2b_loop_sextet c2 b) by assumption.
  reflexivity.
Qed.

Lemma a2b_loop_third (c3 : ascii) (c l : Z) (rest : string) :
  sextet c3 = Some c ->
  a2b_loop (String c3 rest) 4 l 2 =
    let '(lb, out) :=
      a2b_loop rest 2 (Z.land (Z.lor (Z.shiftl l 6) c) 3) 3 in
    (lb, String (chr (Z.land (Z.shiftr (Z.lor (Z.shiftl l 6) c) 2) 255))
           out).
Proof.
  intros H. rewrite (a2b_loop_sextet c3 c) by assumption. reflexivity.
Qed.

Lemma a2b_loop_fourth (c4 : ascii) (d l : Z) (rest : string) :
  sextet c4 = Some d ->
  a2b_loop (String c4 rest) 2 l 3 =
    let '(lb, out) := a2b_loop rest 0 0 0 in
    (lb, String (chr (Z.land (Z.shiftr (Z.lor (Z.shiftl l 6) d) 0) 255))
           out).
Proof.
  intros H. rewrite (a2b_loop_sextet c4 d) by assumption.
  change (2 + 6 >=? 8) with true; cbv iota.
  change (2 + 6 - 8) with 0. change (Z.shiftl 1 0 - 1) with 0.
  rewrite Z.land_0_r. reflexivity.
Qed.

(** A pad character ends the loop after two characters of a group when
    another pad character follows, and after three characters. *)
Lemma a2b_loop_two_pads (l : Z) : a2b_loop "==" 4 l 2 = (0, EmptyString).
Proof. reflexivity. Qed.

Lemma a2b_loop_one_pad (l : Z) : a2b_loop "=" 2 l 3 = (0, EmptyString).
Proof. reflexivity. Qed.

Lemma is_pad_eq (c : ascii) : is_pad c = true -> c = "="%char.
Proof. apply Ascii.eqb_eq. Qed.

Lemma land_15_nonneg (x : Z) : 0 <= Z.land x 15.
Proof. rewrite land_15. apply Z.mod_pos_bound. lia. Qed.

(** On a text that standard base64 accepts, the loop produces the standard
    decoding and leaves no bits. *)
Lemma a2b_loop_std (n : nat) :
  forall s bs,
    (String.length s <= n)%nat ->
    std_b64decode s = Some bs -> a2b_loop s 0 0 0 = (0, bs).
Proof.
  induction n as [|n IH]; intros s bs Hlen Hstd.
  - destruct s; [ | simpl in Hlen; lia].
    injection Hstd as <-. reflexivity.
  - destruct s as [|c1 [|c2 [|c3 [|c4 rest]]]]; try discriminate Hstd.
    + injection Hstd as <-. reflexivity.
    + cbn [std_b64decode] in Hstd.
      destruct (sextet c1) as [a|] eqn:H1; [ | discriminate Hstd].
      destruct (sextet c2) as [b|] eqn:H2; [ | discriminate Hstd].
      destruct (sextet_char _ _ H1) as (_ & _ & _ & Ha).
      destruct (sextet_char _ _ H2) as (_ & _ & _ & Hb).
      rewrite (a2b_loop_first_two c1 c2 a b) by assumption.
      destruct (sextet c3) as [c|] eqn:H3.
      * destruct (sextet_char _ _ H3) as (_ & _ & _ & Hc).
        rewrite (a2b_loop_third c3 c) by assumption.
        rewrite (first_byte a b c 0), (second_byte a b c 0) by lia.
        destruct (sextet c4) as [d|] eqn:H4.
        -- destruct (sextet_char _ _ H4) as (_ & _ & _ & Hd).
           rewrite (a2b_loop_fourth c4 d) by assumption.
           rewrite (third_byte a b c d) by (auto using land_15_nonneg; lia).
           destruct (std_b64decode rest) as [bs'|] eqn:Hrest;
             [ | discriminate Hstd].
           rewrite (IH rest bs') by (simpl in Hlen; auto; lia).
           injection Hstd as <-.
           unfold octet1, octet2, octet3.
           rewrite <- (first_byte a b c 0 Ha Hb Hc ltac:(lia)).
           rewrite <- (second_byte a b c 0 Ha Hb Hc ltac:(lia)).
           rewrite (first_byte a b c d), (second_byte a b c d) by lia.
           reflexivity.
        -- destruct rest; [ | discriminate Hstd].
           destruct (is_pad c4) eqn:Hp; [ | discriminate Hstd].
           apply is_pad_eq in Hp; subst c4.
           rewrite a2b_loop_one_pad. injection Hstd as <-. reflexivity.
      * destruct rest; [ | destruct (sextet c4); discriminate Hstd].
        assert (Hpp : is_pad c3 && is_pad c4 = true).
        { destruct (sextet c4); destruct (is_pad c3 && is_pad c4);
            try discriminate Hstd; reflexivity. }
        apply andb_prop in Hpp as [Hp3 Hp4].
        apply is_pad_eq in Hp3, Hp4; subst c3 c4.
        rewrite a2b_loop_two_pads.
        rewrite (first_byte a b 0 0) by lia.
        change (sextet "=") with (@None Z) in Hstd.
        cbn in Hstd. injection Hstd as <-. reflexivity.
Qed.

(** The decoder agrees with standard base64 on every text the standard
    accepts. *)
Lemma decodestring_std (s bs : string) :
  std_b64decode s = Some bs -> decodestring s = inl bs.
Proof.
  intros H. unfold decodestring, a2b_base64.
  rewrite (a2b_loop_std (String.length s) s bs (le_n _) H). reflexivity.
Qed.

End Base64Facts.

Section Base64RoundTrip.

Import Base64.

Lemma sextet_b64char_nat (n : nat) :
  (n < 64)%nat -> sextet (b64char (Z.of_nat n)) = Some (Z.of_nat n).
Proof.
  intros Hn.
  do 64 (destruct n as [|n]; [reflexivity | ]).
  lia.
Qed.

Lemma sextet_b64char (v : Z) :
  0 <= v < 64 -> sextet (b64char v) = Some v.
Proof.
  intros Hv. rewrite <- (Z2Nat.id v) by lia.
  apply sextet_b64char_nat. lia.
Qed.

Lemma ord_bound (x : ascii) : 0 <= ord x < 256.
Proof.
  unfold ord. pose proof (N_ascii_bounded x). lia.
Qed.

Lemma chr_ord (x : ascii) : chr (ord x) = x.
Proof.
  unfold chr, ord. rewrite N2Z.id. apply ascii_N_embedding.
Qed.

Lemma sextet_pad : sextet "="%char = None.
Proof. reflexivity. Qed.

(** The four 6-bit values of a 24-bit group rebuild the group. *)
Lemma group24_split (n : Z) :
  0 <= n < 16777216 ->
  0 <= n / 262144 < 64 /\
  0 <= (n / 4096) mod 64 < 64 /\
  0 <= (n / 64) mod 64 < 64 /\
  0 <= n mod 64 < 64 /\
  group24 (n / 262144) ((n / 4096) mod 64) ((n / 64) mod 64) (n mod 64) = n
  /\
  group24 (n / 262144) ((n / 4096) mod 64) ((n / 64) mod 64) 0 / 256
    = n / 256 /\
  group24 (n / 262144) ((n / 4096) mod 64) 0 0 / 65536 = n / 65536.
Proof.
  intros Hn. unfold group24.
  repeat split; try (apply Z.mod_pos_bound; lia);
    try (apply Z.div_pos; lia);
    try (apply Z.div_lt_upper_bound; lia).
  all: Z.div_mod_to_equations; lia.
Qed.

Lemma bytes24_octets (x y z : ascii) :
  0 <= bytes24 x y z < 16777216 /\
  bytes24 x y z / 65536 = ord x /\
  (bytes24 x y z / 256) mod 256 = ord y /\
  bytes24 x y z mod 256 = ord z.
Proof.
  unfold bytes24.
  pose proof (ord_bound x). pose proof (ord_bound y). pose proof (ord_bound z).
  repeat split; try lia.
  all: Z.div_mod_to_equations; lia.
Qed.

(** The strict decoder inverts the standard encoder: every byte string has
    a text that the decoder accepts, and it decodes to that byte string. *)
Lemma std_b64decode_b64encode (n : nat) :
  forall bs, (String.length bs <= n)%nat ->
             std_b64decode (b64encode bs) = Some bs.
Proof.
  induction n as [|n IH]; intros bs Hlen.
  - destruct bs; [reflexivity | simpl in Hlen; lia].
  - destruct bs as [|x [|y [|z rest]]]; [reflexivity | | | ].
    + cbn [b64encode].
      destruct (bytes24_octets x zero zero) as (Hn & E1 & _).
      destruct (group24_split _ Hn) as (Ha & Hb & _ & _ & _ & _ & G1).
      cbn [std_b64decode].
      rewrite (sextet_b64char _ Ha), (sextet_b64char _ Hb), sextet_pad.
      cbn [is_pad andb]. change (Ascii.eqb "=" "=") with true. cbv iota.
      unfold octet1. rewrite G1, E1, chr_ord. reflexivity.
    + cbn [b64encode].
      destruct (bytes24_octets x y zero) as (Hn & E1 & E2 & _).
      destruct (group24_split _ Hn) as (Ha & Hb & Hc & _ & _ & G2 & G1).
      cbn [std_b64decode].
      rewrite (sextet_b64char _ Ha), (sextet_b64char _ Hb),
        (sextet_b64char _ Hc), sextet_pad.
      change (is_pad "=") with true. cbv iota.
      unfold octet1, octet2.
      rewrite G2, E2.
      replace (group24 (bytes24 x y zero / 262144)
                 ((bytes24 x y zero / 4096) mod 64)
                 ((bytes24 x y zero / 64) mod 64) 0 / 65536)
        with (bytes24 x y zero / 65536).
      * rewrite E1, !chr_ord. reflexivity.
      * revert G2. unfold group24. intros G2.
        Z.div_mod_to_equations; lia.
    + cbn [b64encode].
      destruct (bytes24_octets x y z) as (Hn & E1 & E2 & E3).
      destruct (group24_split _ Hn) as (Ha & Hb & Hc & Hd & G & _ & _).
      cbn [std_b64decode].
      rewrite (sextet_b64char _ Ha), (sextet_b64char _ Hb),
        (sextet_b64char _ Hc), (sextet_b64char _ Hd).
      rewrite IH by (simpl in Hlen; lia).
      cbv zeta. unfold octet1, octet2, octet3.
      rewrite G, E1, E2, E3, !chr_ord. reflexivity.
Qed.

End Base64RoundTrip.

Section Base64LineBreaks.

Import Base64.

Lemma is_blank_skipped (c : ascii) :
  is_blank c = true ->
  ((ord c >? 127) || (ord c =? 13) || (ord c =? 10) || (ord c =? 32)) = true
  /\ ((ord c <=? 127) && negb (a2b (Z.land (ord c) 127) =? -1)) = false.
Proof.
  unfold is_blank. intros H.
  apply orb_prop in H as [H | H]; [apply orb_prop in H as [H | H] | ];
    apply Z.eqb_eq in H; rewrite H; split; reflexivity.
Qed.

Lemma find_valid_strip (s : string) :
  forall num,
    binascii_find_valid (strip_blanks s) num = binascii_find_valid s num.
Proof.
  induction s as [|c s IH]; intros num; [reflexivity | ].
  cbn [strip_blanks]. destruct (is_blank c) eqn:Hc.
  - cbn [binascii_find_valid].
    destruct (is_blank_skipped c Hc) as [_ ->]. apply IH.
  - cbn [binascii_find_valid].
    destruct ((ord c <=? 127) && negb (a2b (Z.land (ord c) 127) =? -1));
      [destruct (num =? 0) | ]; auto.
Qed.

(** The loop does not see carriage returns, line feeds and spaces. *)
Lemma a2b_loop_strip (s : string) :
  forall lb lc qp,
    a2b_loop (strip_blanks s) lb lc qp = a2b_loop s lb lc qp.
Proof.
  induction s as [|c s IH]; intros lb lc qp; [reflexivity | ].
  cbn [strip_blanks]. destruct (is_blank c) eqn:Hc.
  - cbn [a2b_loop]. destruct (is_blank_skipped c Hc) as [-> _]. apply IH.
  - pose proof (find_valid_strip (String c s) 1) as Hfv.
    cbn [strip_blanks] in Hfv. rewrite Hc in Hfv.
    cbn [a2b_loop]. rewrite Hfv.
    repeat match goal with
           | |- context [if ?b then _ else _] => destruct b
           end;
      rewrite ?IH; reflexivity.
Qed.

(** A text broken into lines decodes as the text without the line breaks;
    in particular a standard text followed by a newline decodes to the
    standard decoding. *)
Lemma decodestring_strip (s bs : string) :
  std_b64decode (strip_blanks s) = Some bs -> decodestring s = inl bs.
Proof.
  intros H. apply decodestring_std in H.
  unfold decodestring, a2b_base64 in *.
  rewrite a2b_loop_strip in H. exact H.
Qed.

End Base64LineBreaks.

(** C9: in the handler the disconnect comes before the print.  After the
    first node manager command that raises, either the disconnect returns
    and the message of the caught exception is printed before the exit with
    status 0, or the disconnect raises: then nothing is printed after it
    and the run ends with that exception uncaught, not with an exit. *)
Theorem disconnect_before_print (w : World) (pre post : trace) (c : call)
    (msg : string) :
  first_failure (final_trace w) = Some (pre, Ev c (Some msg), post) ->
  is_nm_call c = true ->
  (post = [Ev NmDisconnect None; Ev (Print msg) None] /\
   exit_status w = Exited 0) \/
  (exists msg2,
     post = [Ev NmDisconnect (Some msg2)] /\
     printed post = [] /\
     exit_status w = Uncaught (WLSTException msg2) /\
     forall code, exit_status w <> Exited code).
Proof.
  intros H Hc.
  destruct (handler_shape w pre post c msg H Hc) as [Hok | [m2 [Hp Hs]]].
  - left; exact Hok.
  - right; exists m2; subst post; rewrite Hs.
    repeat split; try reflexivity. intros code; discriminate.
Qed.

Lemma disconnect_before_print_witness :
  first_failure (final_trace refused_and_not_connected)
    = Some (firstn 13 (final_trace refused_and_not_connected),
            Ev scenario_connect (Some "Cannot connect to Node Manager"),
            skipn 14 (final_trace refused_and_not_connected)) /\
  is_nm_call scenario_connect = true /\
  ((skipn 14 (final_trace refused_and_not_connected)
      = [Ev NmDisconnect None;
         Ev (Print "Cannot connect to Node Manager") None] /\
    exit_status refused_and_not_connected = Exited 0) \/
   (exists msg2,
      skipn 14 (final_trace refused_and_not_connected)
        = [Ev NmDisconnect (Some msg2)] /\
      printed (skipn 14 (final_trace refused_and_not_connected)) = [] /\
      exit_status refused_and_not_connected
        = Uncaught (WLSTException msg2) /\
      forall code, exit_status refused_and_not_connected <> Exited code)).
Proof.
  split; [reflexivity | split; [reflexivity | ]].
  apply (disconnect_before_print refused_and_not_connected
           (firstn 13 (final_trace refused_and_not_connected))
           (skipn 14 (final_trace refused_and_not_connected))
           scenario_connect "Cannot connect to Node Manager");
    reflexivity.
Defined.

(** C3, as amended: a connect or start command that raises is caught: the
    next call is the handler's disconnect; when that disconnect returns,
    the message of the exception is the next and last line printed and the
    process exits with status 0. *)
Theorem connect_or_start_failure_is_caught (w : World) (c : call)
    (msg : string) :
  In (Ev c (Some msg)) (final_trace w) -> is_connect_or_start c = true ->
  exists pre r post,
    final_trace w
      = (pre ++ Ev c (Some msg) :: Ev NmDisconnect r :: post)%list /\
    (r = None ->
     post = [Ev (Print msg) None] /\ exit_status w = Exited 0).
Proof.
  intros Hin Hc.
  destruct (connect_or_start_fails_first w c msg Hin Hc) as [pre [post Hf]].
  assert (Hnm : is_nm_call c = true) by (destruct c; try discriminate Hc; reflexivity).
  pose proof (first_failure_split _ _ _ _ Hf) as Ht.
  destruct (handler_shape w pre post c msg Hf Hnm) as [[Hp Hs] | [m2 [Hp Hs]]];
    subst post.
  - exists pre, None, [Ev (Print msg) None]. split; [exact Ht | ].
    intros _; split; [reflexivity | exact Hs].
  - exists pre, (Some m2), []. split; [exact Ht | ]. discriminate.
Qed.

Lemma connect_or_start_failure_is_caught_witness :
  In (Ev scenario_connect (Some "Cannot connect to Node Manager"))
     (final_trace refused) /\
  is_connect_or_start scenario_connect = true /\
  exists pre r post,
    final_trace refused
      = (pre ++ Ev scenario_connect (Some "Cannot connect to Node Manager")
             :: Ev NmDisconnect r :: post)%list /\
    (r = None ->
     post = [Ev (Print "Cannot connect to Node Manager") None] /\
     exit_status refused = Exited 0).
Proof.
  split; [vm_compute; tauto | split; [reflexivity | ]].
  apply (connect_or_start_failure_is_caught refused scenario_connect
           "Cannot connect to Node Manager").
  - vm_compute; tauto.
  - reflexivity.
Defined.

(** C3 as stated fails: the connection is refused, the handler's
    disconnect raises, and the run ends with that exception uncaught; the
    message of the refused connection is not printed and there is no exit
    with status 0. *)
Lemma refused_and_not_connected_not_reported :
  In (Ev scenario_connect (Some "Cannot connect to Node Manager"))
     (final_trace refused_and_not_connected) /\
  ~ In "Cannot connect to Node Manager"
       (printed (final_trace refused_and_not_connected)) /\
  exit_status refused_and_not_connected
    = Uncaught (WLSTException "Not connected to Node Manager") /\
  exit_status refused_and_not_connected <> Exited 0.
Proof.
  split; [vm_compute; tauto | ].
  split; [ | split; [reflexivity | discriminate]].
  vm_compute. intros [H | [H | []]]; discriminate H.
Qed.

(** C6: every connect command the script issues carries the fixed
    configuration file, key file, host, port and type, and the domain name
    and domain directory read from DOMAIN_NAME and DOMAIN_HOME. *)
Theorem nmConnect_arguments (w : World) (args : nmConnect_args)
    (r : option string) :
  In (Ev (NmConnect args) r) (final_trace w) ->
  exists dname dhome,
    environ w "DOMAIN_NAME" = Some dname /\
    environ w "DOMAIN_HOME" = Some dhome /\
    args =
      {| userConfigFile :=
           "/weblogic-operator/introspector/userConfigNodeManager.secure";
         userKeyFile := "/tmp/userKeyNodeManager.secure.bin";
         host := "127.0.0.1"; port := "5556";
         domainName := dname; domainDir := dhome; nmType := "plain" |}.
Proof.
  run_cases; intros H.
  all: in_trace H.
  all: injection H as <- <-; do 2 eexists; repeat split; reflexivity.
Qed.

Lemma nmConnect_arguments_witness :
  In (Ev scenario_connect None) (final_trace scenario) /\
  exists dname dhome,
    environ scenario "DOMAIN_NAME" = Some dname /\
    environ scenario "DOMAIN_HOME" = Some dhome /\
    {| userConfigFile := config_path; userKeyFile := bin_path;
       host := "127.0.0.1"; port := "5556";
       domainName := "domain1"; domainDir := "/shared/domain";
       nmType := "plain" |} =
      {| userConfigFile :=
           "/weblogic-operator/introspector/userConfigNodeManager.secure";
         userKeyFile := "/tmp/userKeyNodeManager.secure.bin";
         host := "127.0.0.1"; port := "5556";
         domainName := dname; domainDir := dhome; nmType := "plain" |}.
Proof.
  split; [vm_compute; tauto | ].
  apply (nmConnect_arguments scenario _ None).
  vm_compute; tauto.
Defined.

(** A file operation that fails is the last call of the run, it was not
    attempted before, no node manager command is issued, and the run ends
    with the [IOError] uncaught. *)
Lemma failed_file_call_ends_run (w : World) (c : call) (msg : string) :
  In (Ev c (Some msg)) (final_trace w) -> is_file_call c = true ->
  exists pre,
    final_trace w = (pre ++ [Ev c (Some msg)])%list /\
    ~ In c (calls pre) /\
    nm_calls (final_trace w) = [] /\
    exit_status w = Uncaught (IOError msg).
Proof.
  run_cases; intros H Hc.
  all: in_trace H.
  all: injection H as <- <-; try discriminate Hc.
  all: eexists; split;
    [apply first_failure_split; reflexivity | ].
  all: split; [ | split; reflexivity].
  all: simpl; intros Hp; in_trace Hp.
Qed.

(** When the five variables are set and the world refuses one of the file
    operations of the decoding step (those on the temporary file come
    after the decoding, so the key text has to decode for them to matter),
    some file operation of the run fails. *)
Lemma refused_file_call_fails (w : World) :
  first_missing w = None ->
  refuses w (FileOpen key_path "r") \/
  refuses w (FileRead key_path) \/
  (exists decoded,
     Base64.decodestring (file_data w key_path) = inl decoded /\
     (refuses w (FileOpen bin_path "wb") \/
      refuses w (FileWrite bin_path decoded))) ->
  exists c msg,
    is_file_call c = true /\ In (Ev c (Some msg)) (final_trace w).
Proof.
  unfold first_missing, required_vars, unset, refuses.
  run_cases; intros Hm Hr; try discriminate Hm.
  all: first
    [ do 2 eexists; refine (conj _ _); [ | simpl; eauto 25]; reflexivity
    | exfalso;
      destruct Hr as [Hr | [Hr | [d [Hd [Hr | Hr]]]]];
      try discriminate Hd; try (injection Hd as <-);
      eapply Hr; eassumption ].
Qed.

(** C8: an I/O error of the decoding step is surfaced and not retried.
    A file operation that fails is the last call of the run: it was not
    attempted before, no node manager command follows, and the run ends
    with its [IOError] uncaught.  And with the five variables set, a key
    file that cannot be opened or read, or (when the key text decodes) a
    temporary file that cannot be opened or written, does make the run end
    that way. *)
Theorem io_error_is_surfaced (w : World) :
  (forall c msg,
     In (Ev c (Some msg)) (final_trace w) -> is_file_call c = true ->
     exists pre,
       final_trace w = (pre ++ [Ev c (Some msg)])%list /\
       ~ In c (calls pre) /\
       nm_calls (final_trace w) = [] /\
       exit_status w = Uncaught (IOError msg)) /\
  (first_missing w = None ->
   refuses w (FileOpen key_path "r") \/
   refuses w (FileRead key_path) \/
   (exists decoded,
      Base64.decodestring (file_data w key_path) = inl decoded /\
      (refuses w (FileOpen bin_path "wb") \/
       refuses w (FileWrite bin_path decoded))) ->
   exists c msg pre,
     is_file_call c = true /\
     final_trace w = (pre ++ [Ev c (Some msg)])%list /\
     ~ In c (calls pre) /\
     nm_calls (final_trace w) = [] /\
     exit_status w = Uncaught (IOError msg)).
Proof.
  split.
  - apply failed_file_call_ends_run.
  - intros Hm Hr.
    destruct (refused_file_call_fails w Hm Hr) as (c & msg & Hc & Hin).
    destruct (failed_file_call_ends_run w c msg Hin Hc) as (pre & H).
    exists c, msg, pre. split; [exact Hc | exact H].
Qed.

Lemma io_error_is_surfaced_witness :
  (first_missing no_key_file = None /\
   refuses no_key_file (FileOpen key_path "r") /\
   exists c msg pre,
     is_file_call c = true /\
     final_trace no_key_file = (pre ++ [Ev c (Some msg)])%list /\
     ~ In c (calls pre) /\
     nm_calls (final_trace no_key_file) = [] /\
     exit_status no_key_file = Uncaught (IOError msg)) /\
  (first_missing unreadable_key_file = None /\
   refuses unreadable_key_file (FileRead key_path) /\
   exists c msg pre,
     is_file_call c = true /\
     final_trace unreadable_key_file = (pre ++ [Ev c (Some msg)])%list /\
     ~ In c (calls pre) /\
     nm_calls (final_trace unreadable_key_file) = [] /\
     exit_status unreadable_key_file = Uncaught (IOError msg)) /\
  (first_missing read_only_tmp = None /\
   Base64.decodestring (file_data read_only_tmp key_path)
     = inl "secretbytes" /\
   refuses read_only_tmp (FileOpen bin_path "wb") /\
   exists c msg pre,
     is_file_call c = true /\
     final_trace read_only_tmp = (pre ++ [Ev c (Some msg)])%list /\
     ~ In c (calls pre) /\
     nm_calls (final_trace read_only_tmp) = [] /\
     exit_status read_only_tmp = Uncaught (IOError msg)) /\
  (first_missing disk_full = None /\
   Base64.decodestring (file_data disk_full key_path) = inl "secretbytes" /\
   refuses disk_full (FileWrite bin_path "secretbytes") /\
   exists c msg pre,
     is_file_call c = true /\
     final_trace disk_full = (pre ++ [Ev c (Some msg)])%list /\
     ~ In c (calls pre) /\
     nm_calls (final_trace disk_full) = [] /\
     exit_status disk_full = Uncaught (IOError msg)) /\
  (In (Ev (FileWrite bin_path "secretbytes")
         (Some "[Errno 28] No space left on device"))
      (final_trace disk_full) /\
   is_file_call (FileWrite bin_path "secretbytes") = true /\
   exists pre,
     final_trace disk_full
       = (pre ++ [Ev (FileWrite bin_path "secretbytes")
                    (Some "[Errno 28] No space left on device")])%list /\
     ~ In (FileWrite bin_path "secretbytes") (calls pre) /\
     nm_calls (final_trace disk_full) = [] /\
     exit_status disk_full
       = Uncaught (IOError "[Errno 28] No space left on device")).
Proof.
  assert (R1 : refuses no_key_file (FileOpen key_path "r"))
    by (intros t; discriminate).
  assert (R2 : refuses unreadable_key_file (FileRead key_path))
    by (intros t; discriminate).
  assert (R3 : refuses read_only_tmp (FileOpen bin_path "wb"))
    by (intros t; discriminate).
  assert (R4 : refuses disk_full (FileWrite bin_path "secretbytes"))
    by (intros t; discriminate).
  split; [ | split; [ | split; [ | split]]].
  - split; [reflexivity | split; [exact R1 | ]].
    apply (proj2 (io_error_is_surfaced no_key_file)); [reflexivity | ].
    left; exact R1.
  - split; [reflexivity | split; [exact R2 | ]].
    apply (proj2 (io_error_is_surfaced unreadable_key_file));
      [reflexivity | ].
    right; left; exact R2.
  - split; [reflexivity | split; [reflexivity | split; [exact R3 | ]]].
    apply (proj2 (io_error_is_surfaced read_only_tmp)); [reflexivity | ].
    right; right; exists "secretbytes"; split; [reflexivity | left; exact R3].
  - split; [reflexivity | split; [reflexivity | split; [exact R4 | ]]].
    apply (proj2 (io_error_is_surfaced disk_full)); [reflexivity | ].
    right; right; exists "secretbytes";
      split; [reflexivity | right; exact R4].
  - split; [vm_compute; tauto | split; [reflexivity | ]].
    apply (proj1 (io_error_is_surfaced disk_full)
             (FileWrite bin_path "secretbytes")
             "[Errno 28] No space left on device").
    + vm_compute; tauto.
    + reflexivity.
Defined.





(** C5, as amended: when the five variables are set and the node manager
    accepts the connection, the commands that follow are one start command
    naming the server of SERVER_NAME and then a disconnect.  That
    disconnect is the only one, unless the start returned and the
    disconnect raised: the handler then issues one more. *)
Theorem one_start_then_disconnect (w : World) (args : nmConnect_args) :
  first_missing w = None ->
  In (Ev (NmConnect args) None) (final_trace w) ->
  exists server rs rd extra,
    environ w "SERVER_NAME" = Some server /\
    nm_events (final_trace w)
      = Ev (NmConnect args) None :: Ev (NmStart server) rs
          :: Ev NmDisconnect rd :: extra /\
    (rd = None -> extra = []) /\
    (rs <> None -> extra = []) /\
    (rs = None -> rd <> None -> exists r, extra = [Ev NmDisconnect r]).
Proof.
  unfold nm_events.
  run_cases; intros _ H.
  all: in_trace H.
  all: injection H as <-.
  all: do 4 eexists; split; [reflexivity | split; [reflexivity | ]].
  all: repeat split; try reflexivity; try congruence.
  all: intros; eexists; reflexivity.
Qed.

Lemma one_start_then_disconnect_witness :
  first_missing scenario = None /\
  In (Ev scenario_connect None) (final_trace scenario) /\
  exists server rs rd extra,
    environ scenario "SERVER_NAME" = Some server /\
    nm_events (final_trace scenario)
      = Ev scenario_connect None :: Ev (NmStart server) rs
          :: Ev NmDisconnect rd :: extra /\
    (rd = None -> extra = []) /\
    (rs <> None -> extra = []) /\
    (rs = None -> rd <> None -> exists r, extra = [Ev NmDisconnect r]).
Proof.
  split; [reflexivity | split; [vm_compute; tauto | ]].
  apply (one_start_then_disconnect scenario).
  - reflexivity.
  - vm_compute; tauto.
Defined.

(** C5 as stated fails: the connection is accepted and the server started,
    the disconnect raises, and the handler disconnects a second time. *)
Lemma first_disconnect_fails_two_disconnects :
  first_missing first_disconnect_fails = None /\
  In (Ev scenario_connect None) (final_trace first_disconnect_fails) /\
  nm_calls (final_trace first_disconnect_fails)
    = [scenario_connect; NmStart "server1"; NmDisconnect; NmDisconnect].
Proof.
  split; [reflexivity | split; [vm_compute; tauto | reflexivity]].
Qed.

(** C7, as amended: the steps of a run are an initial part of the sequence
    lookups, file operations, connect, start, disconnect, followed by the
    handler's disconnect exactly when a node manager command raised.  A
    connect or start that raises is followed at once by the handler's
    disconnect, and when that disconnect returns the exit status is 0, as
    on the run without failure. *)
Theorem linear_order_with_one_branch (w : World) :
  (exists n,
     phases (final_trace w)
       = (firstn n normal_phases
            ++ (if handler_ran (final_trace w) then [Disconnect] else []))%list)
  /\
  (forall c msg,
     In (Ev c (Some msg)) (final_trace w) ->
     is_connect_or_start c = true ->
     exists pre r post,
       final_trace w
         = (pre ++ Ev c (Some msg) :: Ev NmDisconnect r :: post)%list /\
       (r = None -> exit_status w = Exited 0)) /\
  (first_failure (final_trace w) = None ->
   first_missing w = None ->
   (exists bytes, Base64.decodestring (file_data w key_path) = inl bytes) ->
   phases (final_trace w) = normal_phases /\ exit_status w = Exited 0).
Proof.
  split; [ | split].
  - unfold handler_ran, normal_phases. run_cases.
    all: first
      [ exists 0%nat; reflexivity | exists 1%nat; reflexivity
      | exists 2%nat; reflexivity | exists 3%nat; reflexivity
      | exists 4%nat; reflexivity | exists 5%nat; reflexivity
      | exists 6%nat; reflexivity | exists 7%nat; reflexivity
      | exists 8%nat; reflexivity | exists 9%nat; reflexivity
      | exists 10%nat; reflexivity | exists 11%nat; reflexivity
      | exists 12%nat; reflexivity | exists 13%nat; reflexivity
      | exists 14%nat; reflexivity ].
  - intros c msg Hin Hc.
    destruct (connect_or_start_fails_first w c msg Hin Hc) as [pre [post Hf]].
    assert (Hnm : is_nm_call c = true)
      by (destruct c; try discriminate Hc; reflexivity).
    pose proof (first_failure_split _ _ _ _ Hf) as Ht.
    destruct (handler_shape w pre post c msg Hf Hnm)
      as [[Hp Hs] | [m2 [Hp Hs]]]; subst post.
    + exists pre, None, [Ev (Print msg) None]. split; [exact Ht | ].
      intros _; exact Hs.
    + exists pre, (Some m2), []. split; [exact Ht | discriminate].
  - unfold first_missing, required_vars, unset, normal_phases.
    run_cases; intros Hf Hm [bytes Hb].
    all: first [discriminate Hf | discriminate Hm | discriminate Hb
               | split; reflexivity].
Qed.

Lemma linear_order_with_one_branch_witness :
  In (Ev (NmStart "server1") (Some "Error Starting server"))
     (final_trace start_and_disconnect_fail) /\
  is_connect_or_start (NmStart "server1") = true /\
  exists pre r post,
    final_trace start_and_disconnect_fail
      = (pre ++ Ev (NmStart "server1") (Some "Error Starting server")
             :: Ev NmDisconnect r :: post)%list /\
    (r = None -> exit_status start_and_disconnect_fail = Exited 0).
Proof.
  split; [vm_compute; tauto | split; [reflexivity | ]].
  apply (proj1 (proj2 (linear_order_with_one_branch
                         start_and_disconnect_fail))).
  - vm_compute; tauto.
  - reflexivity.
Defined.

(** C7 as stated fails: the start command raises, the handler's disconnect
    raises too, and the run ends with an uncaught exception instead of the
    exit status 0 of the run without failure. *)
Lemma start_and_disconnect_fail_changes_the_end :
  exit_status scenario = Exited 0 /\
  In (Ev (NmStart "server1") (Some "Error Starting server"))
     (final_trace start_and_disconnect_fail) /\
  In (Ev NmDisconnect (Some "Connection lost"))
     (final_trace start_and_disconnect_fail) /\
  exit_status start_and_disconnect_fail
    = Uncaught (WLSTException "Connection lost") /\
  exit_status start_and_disconnect_fail <> Exited 0.
Proof.
  split; [reflexivity | ].
  split; [vm_compute; tauto | ].
  split; [vm_compute; tauto | ].
  split; [reflexivity | discriminate].
Qed.

(** C4: when the key file holds a text that standard base64 accepts, every
    write of the run goes to /tmp/userKeyNodeManager.secure.bin and writes
    the standard decoding of that text; and the write takes place when the
    five variables are set and no file operation fails. *)
Theorem written_bytes_are_standard_decoding (w : World) (bytes : string) :
  Base64.std_b64decode
    (file_data w "/weblogic-operator/introspector/userKeyNodeManager.secure")
    = Some bytes ->
  (forall path data r,
     In (Ev (FileWrite path data) r) (final_trace w) ->
     path = "/tmp/userKeyNodeManager.secure.bin" /\ data = bytes) /\
  (first_missing w = None ->
   (forall c msg,
      In (Ev c (Some msg)) (final_trace w) -> is_file_call c = false) ->
   In (Ev (FileWrite "/tmp/userKeyNodeManager.secure.bin" bytes) None)
      (final_trace w)).
Proof.
  intros Hstd. apply decodestring_std in Hstd. revert Hstd.
  change "/weblogic-operator/introspector/userKeyNodeManager.secure"
    with key_path.
  unfold first_missing, required_vars, unset.
  run_cases; intros Hstd; try discriminate Hstd.
  all: try (injection Hstd as ->).
  all: split;
    [ intros path data r H; in_trace H;
      injection H as <- <- <-; split; reflexivity
    | intros Hm Hok;
      first
        [ discriminate Hm
        | simpl; tauto
        | exfalso;
          match goal with
          | Hf : fault _ _ ?c = Some ?m |- _ =>
              specialize (Hok c m ltac:(auto 20)); discriminate Hok
          end ] ].
Qed.

Lemma written_bytes_are_standard_decoding_witness :
  Base64.std_b64decode
    (file_data scenario
       "/weblogic-operator/introspector/userKeyNodeManager.secure")
    = Some "secretbytes" /\
  (forall path data r,
     In (Ev (FileWrite path data) r) (final_trace scenario) ->
     path = "/tmp/userKeyNodeManager.secure.bin" /\ data = "secretbytes") /\
  (first_missing scenario = None ->
   (forall c msg,
      In (Ev c (Some msg)) (final_trace scenario) -> is_file_call c = false) ->
   In (Ev (FileWrite "/tmp/userKeyNodeManager.secure.bin" "secretbytes") None)
      (final_trace scenario)).
Proof.
  split; [reflexivity | ].
  apply (written_bytes_are_standard_decoding scenario "secretbytes").
  reflexivity.
Defined.

(** ** The scenario of the specification *)

Example scenario_run :
  run scenario =
    ([Ev (GetEnv "DOMAIN_UID") None; Ev (GetEnv "SERVER_NAME") None;
      Ev (GetEnv "DOMAIN_NAME") None; Ev (GetEnv "DOMAIN_HOME") None;
      Ev (GetEnv "SERVICE_NAME") None;
      Ev (Print "domain path is /shared/domain") None;
      Ev (Print "server name is server1") None;
      Ev (FileOpen key_path "r") None;
      Ev (FileRead key_path) None;
      Ev (FileClose key_path) None;
      Ev (FileOpen bin_path "wb") None;
      Ev (FileWrite bin_path "secretbytes") None;
      Ev (FileClose bin_path) None;
      Ev scenario_connect None;
      Ev (NmStart "server1") None;
      Ev NmDisconnect None],
     Exited 0).
Proof. reflexivity. Qed.

Example scenario_without_DOMAIN_UID :
  run (scenario_without "DOMAIN_UID") =
    ([Ev (GetEnv "DOMAIN_UID") None;
      Ev (Print "ERROR: Env var  DOMAIN_UID  not set.") None],
     Exited 1).
Proof. reflexivity. Qed.

Example bad_key_file_run :
  exit_status bad_key_file = Uncaught (binascii_Error "Incorrect padding") /\
  file_calls (final_trace bad_key_file)
    = [FileOpen key_path "r"; FileRead key_path; FileClose key_path] /\
  nm_calls (final_trace bad_key_file) = [].
Proof. repeat split. Qed.

Example first_disconnect_fails_run :
  nm_events (final_trace first_disconnect_fails)
    = [Ev scenario_connect None; Ev (NmStart "server1") None;
       Ev NmDisconnect (Some "Connection lost"); Ev NmDisconnect None] /\
  printed (final_trace first_disconnect_fails)
    = ["domain path is /shared/domain"; "server name is server1";
       "Connection lost"] /\
  exit_status first_disconnect_fails = Exited 0.
Proof. repeat split. Qed.

(** * Further properties of the script *)

(** X1: the values of DOMAIN_UID and SERVICE_NAME, the other variables of
    the environment and the other files are never used: two worlds that
    agree on the rest run alike. *)
Theorem run_ignores_uid_and_service (w w' : World) :
  same_inputs w w' -> run w = run w'.
Proof.
  intros (H1 & H2 & H3 & H4 & H5 & H6 & Hf).
  revert H1 H2. unfold unset. unfold_script.
  rewrite <- H3, <- H4, <- H5. simpl.
  repeat (repeat rewrite <- Hf; rewrite <- ?H6; case_step).
  all: intros; try discriminate; reflexivity.
Qed.

Lemma run_ignores_uid_and_service_witness :
  same_inputs scenario scenario_other_uid /\
  run scenario = run scenario_other_uid.
Proof.
  assert (H : same_inputs scenario scenario_other_uid)
    by (repeat split; reflexivity).
  split; [exact H | ].
  apply (run_ignores_uid_and_service scenario scenario_other_uid H).
Defined.

(** X2: what the script prints.  Every line on standard output is the
    configuration error naming the first missing variable, one of the two
    diagnostic lines, or the message of an exception raised by a node
    manager command; the key, the decoded bytes and the text of an I/O error
    are never printed. *)
Theorem printed_lines (w : World) (line : string) :
  In line (printed (final_trace w)) ->
  (exists m, first_missing w = Some m /\ line = env_error m) \/
  (exists dhome,
     environ w "DOMAIN_HOME" = Some dhome /\
     line = "domain path is " ++ dhome) \/
  (exists server,
     environ w "SERVER_NAME" = Some server /\
     line = "server name is " ++ server) \/
  (exists c, is_nm_call c = true /\ In (Ev c (Some line)) (final_trace w)).
Proof.
  unfold first_missing, required_vars, unset, env_error.
  run_cases; intros H.
  all: repeat (destruct H as [H | H]; [subst line | ]); try contradiction.
  all: first
    [ left; eexists; split; reflexivity
    | right; left; eexists; split; reflexivity
    | right; right; left; eexists; split; reflexivity
    | right; right; right;
      refine (ex_intro _ _ (conj _ _)); [ | simpl; eauto 25]; reflexivity ].
Qed.

Lemma printed_lines_witness :
  In "Cannot connect to Node Manager" (printed (final_trace refused)) /\
  ((exists m,
      first_missing refused = Some m /\
      "Cannot connect to Node Manager" = env_error m) \/
   (exists dhome,
      environ refused "DOMAIN_HOME" = Some dhome /\
      "Cannot connect to Node Manager" = "domain path is " ++ dhome) \/
   (exists server,
      environ refused "SERVER_NAME" = Some server /\
      "Cannot connect to Node Manager" = "server name is " ++ server) \/
   (exists c,
      is_nm_call c = true /\
      In (Ev c (Some "Cannot connect to Node Manager"))
         (final_trace refused))).
Proof.
  split; [vm_compute; tauto | ].
  apply (printed_lines refused "Cannot connect to Node Manager").
  vm_compute; tauto.
Defined.

(** X3: the file operations of a run are an initial part of: open, read
    and close the key file, then open, write and close the temporary file.
    No other path is touched, the key file is closed before the temporary
    file is opened, and what is written is what the decoder returned. *)
Theorem file_calls_in_order (w : World) :
  exists n decoded,
    file_calls (final_trace w) = firstn n (key_file_ops decoded) /\
    ((5 <= n)%nat ->
     Base64.decodestring (file_data w key_path) = inl decoded).
Proof.
  unfold file_calls, key_file_ops.
  run_cases.
  all: first
    [ exists 0%nat, ""; split; [reflexivity | intros; lia]
    | exists 1%nat, ""; split; [reflexivity | intros; lia]
    | exists 2%nat, ""; split; [reflexivity | intros; lia]
    | exists 3%nat, ""; split; [reflexivity | intros; lia]
    | exists 4%nat, ""; split; [reflexivity | intros; lia]
    | exists 5%nat; eexists; split; reflexivity
    | exists 6%nat; eexists; split; reflexivity ].
Qed.

(** X4: a connect command is issued only after the decoded key has been
    written to the temporary file and that file closed, both without
    error: these are the three calls just before it. *)
Theorem connect_after_key_written (w : World) (args : nmConnect_args)
    (r : option string) :
  In (Ev (NmConnect args) r) (final_trace w) ->
  exists pre post decoded,
    Base64.decodestring (file_data w key_path) = inl decoded /\
    final_trace w =
      (pre ++ Ev (FileOpen bin_path "wb") None
           :: Ev (FileWrite bin_path decoded) None
           :: Ev (FileClose bin_path) None
           :: Ev (NmConnect args) r :: post)%list.
Proof.
  run_cases; intros H.
  all: in_trace H.
  all: injection H as <- <-.
  all: match goal with
       | |- exists pre post decoded, _ /\ ?T = _ =>
           exists (firstn 10 T), (skipn 14 T)
       end.
  all: eexists; split; reflexivity.
Qed.

Lemma connect_after_key_written_witness :
  In (Ev scenario_connect None) (final_trace scenario) /\
  exists pre post decoded,
    Base64.decodestring (file_data scenario key_path) = inl decoded /\
    final_trace scenario =
      (pre ++ Ev (FileOpen bin_path "wb") None
           :: Ev (FileWrite bin_path decoded) None
           :: Ev (FileClose bin_path) None
           :: Ev scenario_connect None :: post)%list.
Proof.
  split; [vm_compute; tauto | ].
  apply (connect_after_key_written scenario _ None).
  vm_compute; tauto.
Defined.

(** X5: when the decoder rejects the text of the key file, the temporary
    file is never opened, no node manager command is issued and the script
    does not exit with status 0; when moreover the five variables are set
    and the key file is read without error, the run ends with the decoder's
    exception uncaught. *)
Theorem undecodable_key_stops_the_run (w : World) (e : exn) :
  Base64.decodestring (file_data w key_path) = inr e ->
  (forall path mode r,
     In (Ev (FileOpen path mode) r) (final_trace w) ->
     path = key_path /\ mode = "r") /\
  nm_calls (final_trace w) = [] /\
  exit_status w <> Exited 0 /\
  (first_missing w = None ->
   last_failure (final_trace w) = None ->
   exit_status w = Uncaught (binascii_Error "Incorrect padding")).
Proof.
  unfold first_missing, required_vars, unset.
  run_cases; intros Hd; try discriminate Hd.
  all: split;
    [ intros path mode r H; in_trace H; injection H as <- <- <-;
      split; reflexivity | ].
  all: split; [reflexivity | ].
  all: split; [discriminate | ].
  all: intros Hm Hl;
    first [discriminate Hm | discriminate Hl | reflexivity].
Qed.

Lemma undecodable_key_stops_the_run_witness :
  Base64.decodestring (file_data bad_key_file key_path)
    = inr (binascii_Error "Incorrect padding") /\
  (forall path mode r,
     In (Ev (FileOpen path mode) r) (final_trace bad_key_file) ->
     path = key_path /\ mode = "r") /\
  nm_calls (final_trace bad_key_file) = [] /\
  exit_status bad_key_file <> Exited 0 /\
  (first_missing bad_key_file = None ->
   last_failure (final_trace bad_key_file) = None ->
   exit_status bad_key_file = Uncaught (binascii_Error "Incorrect padding")).
Proof.
  split; [reflexivity | ].
  apply (undecodable_key_stops_the_run bad_key_file
           (binascii_Error "Incorrect padding")).
  reflexivity.
Defined.

(** X6: when the connect command raises, the start command is never
    issued: the node manager sees the connect and then the handler's one
    disconnect. *)
Theorem refused_connection_never_starts (w : World) (args : nmConnect_args)
    (msg : string) :
  In (Ev (NmConnect args) (Some msg)) (final_trace w) ->
  exists r,
    nm_events (final_trace w)
      = [Ev (NmConnect args) (Some msg); Ev NmDisconnect r].
Proof.
  unfold nm_events.
  run_cases; intros H.
  all: in_trace H.
  all: injection H as <- <-; eexists; reflexivity.
Qed.

Lemma refused_connection_never_starts_witness :
  In (Ev scenario_connect (Some "Cannot connect to Node Manager"))
     (final_trace refused) /\
  exists r,
    nm_events (final_trace refused)
      = [Ev scenario_connect (Some "Cannot connect to Node Manager");
         Ev NmDisconnect r].
Proof.
  split; [vm_compute; tauto | ].
  apply (refused_connection_never_starts refused _
           "Cannot connect to Node Manager").
  vm_compute; tauto.
Defined.

(** X7: a start command is issued only after a connect command that
    returned, and it names the server of SERVER_NAME. *)
Theorem start_needs_connection (w : World) (server : string)
    (r : option string) :
  In (Ev (NmStart server) r) (final_trace w) ->
  environ w "SERVER_NAME" = Some server /\
  exists pre post args,
    final_trace w
      = (pre ++ Ev (NmConnect args) None :: Ev (NmStart server) r
             :: post)%list.
Proof.
  run_cases; intros H.
  all: in_trace H.
  all: injection H as <- <-; split; [reflexivity | ].
  all: match goal with
       | |- exists pre post args, ?T = _ =>
           exists (firstn 13 T), (skipn 15 T)
       end.
  all: eexists; reflexivity.
Qed.

Lemma start_needs_connection_witness :
  In (Ev (NmStart "server1") (Some "Error Starting server"))
     (final_trace start_and_disconnect_fail) /\
  environ start_and_disconnect_fail "SERVER_NAME" = Some "server1" /\
  exists pre post args,
    final_trace start_and_disconnect_fail
      = (pre ++ Ev (NmConnect args) None
             :: Ev (NmStart "server1") (Some "Error Starting server")
             :: post)%list.
Proof.
  split; [vm_compute; tauto | ].
  apply (start_needs_connection start_and_disconnect_fail "server1"
           (Some "Error Starting server")).
  vm_compute; tauto.
Defined.

(** X8: nothing is retried.  Apart from printing and disconnecting, no
    call is made twice in a run, and there are at most two disconnect
    commands. *)
Theorem no_call_is_repeated (w : World) :
  NoDup (single_calls (final_trace w)) /\
  (List.length (filter is_disconnect (final_trace w)) <= 2)%nat.
Proof.
  unfold single_calls, key_path, bin_path.
  run_cases.
  all: split; [ | simpl; lia].
  all: repeat (constructor; [simpl; intuition discriminate | ]);
    constructor.
Qed.

(** X9: once a connect command has been issued, connected or not, the last
    node manager command of the run is a disconnect. *)
Theorem connect_ends_with_disconnect (w : World) (args : nmConnect_args)
    (r : option string) :
  In (Ev (NmConnect args) r) (final_trace w) ->
  exists r' earlier,
    rev (nm_events (final_trace w)) = Ev NmDisconnect r' :: earlier.
Proof.
  unfold nm_events.
  run_cases; intros H.
  all: in_trace H.
  all: do 2 eexists; reflexivity.
Qed.

Lemma connect_ends_with_disconnect_witness :
  In (Ev (NmConnect scenario_connect_args)
        (Some "Cannot connect to Node Manager"))
     (final_trace refused_and_not_connected) /\
  exists r' earlier,
    rev (nm_events (final_trace refused_and_not_connected))
      = Ev NmDisconnect r' :: earlier.
Proof.
  split; [vm_compute; tauto | ].
  apply (connect_ends_with_disconnect refused_and_not_connected
           scenario_connect_args (Some "Cannot connect to Node Manager")).
  vm_compute; tauto.
Defined.

(** What the run writes when the decoder returns [bytes]. *)
Lemma writes_what_is_decoded (w : World) (bytes : string) :
  Base64.decodestring (file_data w key_path) = inl bytes ->
  (forall path data r,
     In (Ev (FileWrite path data) r) (final_trace w) ->
     path = bin_path /\ data = bytes) /\
  (first_missing w = None ->
   (forall c msg,
      In (Ev c (Some msg)) (final_trace w) -> is_file_call c = false) ->
   In (Ev (FileWrite bin_path bytes) None) (final_trace w)).
Proof.
  unfold first_missing, required_vars, unset.
  run_cases; intros Hd; try discriminate Hd.
  all: try (injection Hd as ->).
  all: split;
    [ intros path data r H; in_trace H;
      injection H as <- <- <-; split; reflexivity
    | intros Hm Hok;
      first
        [ discriminate Hm
        | simpl; tauto
        | exfalso;
          match goal with
          | Hf : fault _ _ ?c = Some ?m |- _ =>
              specialize (Hok c m ltac:(auto 20)); discriminate Hok
          end ] ].
Qed.

(** X10: round trip.  When the key file holds the standard base64
    encoding of a byte string, possibly broken by carriage returns, line
    feeds and spaces, whatever the run writes is that byte string, and it
    is written when the five variables are set and no file operation
    fails. *)
Theorem encoded_key_is_recovered (w : World) (bytes : string) :
  Base64.strip_blanks (file_data w key_path) = Base64.b64encode bytes ->
  (forall path data r,
     In (Ev (FileWrite path data) r) (final_trace w) ->
     path = bin_path /\ data = bytes) /\
  (first_missing w = None ->
   (forall c msg,
      In (Ev c (Some msg)) (final_trace w) -> is_file_call c = false) ->
   In (Ev (FileWrite bin_path bytes) None) (final_trace w)).
Proof.
  intros H. apply writes_what_is_decoded.
  apply decodestring_strip. rewrite H.
  apply (std_b64decode_b64encode (String.length bytes)). apply le_n.
Qed.

Lemma encoded_key_is_recovered_witness :
  Base64.strip_blanks (file_data wrapped_key_file key_path)
    = Base64.b64encode "secretbytes" /\
  (forall path data r,
     In (Ev (FileWrite path data) r) (final_trace wrapped_key_file) ->
     path = bin_path /\ data = "secretbytes") /\
  (first_missing wrapped_key_file = None ->
   (forall c msg,
      In (Ev c (Some msg)) (final_trace wrapped_key_file) ->
      is_file_call c = false) ->
   In (Ev (FileWrite bin_path "secretbytes") None)
      (final_trace wrapped_key_file)).
Proof.
  split; [reflexivity | ].
  apply (encoded_key_is_recovered wrapped_key_file "secretbytes").
  reflexivity.
Defined.

(** X11: the exceptions that end a run.  An uncaught exception is the
    [IOError] of a file operation, the last call of the run; or the
    decoder's error; or a [WLSTException] raised by the handler's
    disconnect, the last call of the run, after another node manager
    command raised.  The exception of a connect or start command never
    ends the run. *)
Theorem uncaught_exceptions (w : World) (e : exn) :
  exit_status w = Uncaught e ->
  (exists c msg pre,
     e = IOError msg /\ is_file_call c = true /\
     final_trace w = (pre ++ [Ev c (Some msg)])%list) \/
  (e = binascii_Error "Incorrect padding" /\
   Base64.decodestring (file_data w key_path) = inr e) \/
  (exists msg pre c first_msg,
     e = WLSTException msg /\
     final_trace w = (pre ++ [Ev NmDisconnect (Some msg)])%list /\
     is_nm_call c = true /\ In (Ev c (Some first_msg)) pre).
Proof.
  run_cases; intros H; try discriminate H; injection H as <-.
  all: first
    [ left; do 2 eexists;
      match goal with
      | |- exists pre, _ /\ _ /\ ?T = _ => exists (removelast T)
      end;
      refine (conj _ (conj _ _)); [reflexivity | | reflexivity]; reflexivity
    | right; left; split; reflexivity
    | right; right; eexists;
      match goal with
      | |- exists pre c m, _ /\ ?T = _ /\ _ => exists (removelast T)
      end;
      do 2 eexists; split; [reflexivity | split; [reflexivity | ]];
      refine (conj _ _); [ | simpl; eauto 25]; reflexivity ].
Qed.

Lemma uncaught_exceptions_witness :
  exit_status start_and_disconnect_fail
    = Uncaught (WLSTException "Connection lost") /\
  ((exists c msg pre,
      WLSTException "Connection lost" = IOError msg /\
      is_file_call c = true /\
      final_trace start_and_disconnect_fail
        = (pre ++ [Ev c (Some msg)])%list) \/
   (WLSTException "Connection lost" = binascii_Error "Incorrect padding" /\
    Base64.decodestring (file_data start_and_disconnect_fail key_path)
      = inr (WLSTException "Connection lost")) \/
   (exists msg pre c first_msg,
      WLSTException "Connection lost" = WLSTException msg /\
      final_trace start_and_disconnect_fail
        = (pre ++ [Ev NmDisconnect (Some msg)])%list /\
      is_nm_call c = true /\ In (Ev c (Some first_msg)) pre)).
Proof.
  split; [reflexivity | ].
  apply (uncaught_exceptions start_and_disconnect_fail
           (WLSTException "Connection lost")).
  reflexivity.
Defined.
